(** * The asset build pipeline of webpack.config.js

    A shallow embedding of the build configuration: the [folder] paths, the
    [cssPairs] table, the [entry] map, the output file-name templates, the
    copy patterns and the [GenerateRTL] hook tapped into [processAssets].

    The collaborators the configuration calls but does not define (the
    style compiler behind the loader chain, the chunk renderer and
    [rtlcss.process]) are variables of the section [Pipeline]. *)

From Stdlib Require Import ZArith Ascii.
From Stdlib Require String.
From stdpp Require Import gmap strings list fin_maps.

(** ** Strings: paths and file-name templates *)

Module Path.

(** The segments of a path between its slashes. *)
Fixpoint segments (s : string) : list string :=
  match s with
  | EmptyString => [EmptyString]
  | String c s' =>
      if Ascii.eqb c "/"%char then EmptyString :: segments s'
      else match segments s' with
           | seg :: rest => String c seg :: rest
           | [] => [String c EmptyString]
           end
  end.

(** A segment that normalisation keeps: neither empty nor ["."]. *)
Definition proper (seg : string) : bool :=
  negb (String.eqb seg "" || String.eqb seg ".").

(** [path.join] and [path.resolve] on the paths of the configuration, written
    relative to the directory of webpack.config.js ([__dirname], the first
    argument of every call there): the segments of all parts, empty and
    ["."] segments dropped, joined with slashes. *)
Definition join (parts : list string) : string :=
  String.concat "/" (List.filter proper (flat_map segments parts)).

(** [strip_prefix p s] is the rest of [s] after its prefix [p]. *)
Fixpoint strip_prefix (p s : string) : option string :=
  match p, s with
  | EmptyString, _ => Some s
  | String a p', String b s' =>
      if Ascii.eqb a b then strip_prefix p' s' else None
  | String _ _, EmptyString => None
  end.

(** The path of [file] below the directory [dir]. *)
Definition below (dir file : string) : option string :=
  strip_prefix (dir +:+ "/") file.

(** [path.relative base p] for a path [p] at or below [base]. *)
Definition relative (base p : string) : option string :=
  if String.eqb base p then Some "" else below base p.

(** A path as [join] leaves it: every segment proper. *)
Definition normalised (s : string) : bool :=
  List.forallb proper (segments s).

End Path.

Module Template.

(** [s.replace(/pat/g, rep)] for a literal pattern: every occurrence of
    [pat], left to right. [skip] counts the characters of a matched
    occurrence still to drop. *)
Fixpoint replace (skip : nat) (pat rep s : string) : string :=
  match s with
  | EmptyString => EmptyString
  | String c s' =>
      match skip with
      | S k => replace k pat rep s'
      | O =>
          if String.prefix pat s
          then rep +:+ replace (String.length pat - 1) pat rep s'
          else String c (replace 0 pat rep s')
      end
  end.

(** Substitution of the chunk name for the placeholder of a file-name
    template. *)
Definition interpolate (template name : string) : string :=
  replace 0 "[name]" name template.

End Template.

(** ** The configuration *)

(** [const folder = { src, src_assets, dist, dist_assets }] *)
Record Folder := {
  src : string;
  src_assets : string;
  dist : string;
  dist_assets : string
}.

Definition folder : Folder := {|
  src := "./src/";
  src_assets := "./src/assets/";
  dist := "./static/";
  dist_assets := "./static/assets/"
|}.

(** An element of [cssPairs]. *)
Record CssPair := { ltr : string; rtl : string }.

Definition cssPairs : list CssPair := [
  {| ltr := "css/app.min.css"; rtl := "css/app-rtl.min.css" |};
  {| ltr := "css/bootstrap.min.css"; rtl := "css/bootstrap-rtl.min.css" |}
].

(** [entry]: chunk name and style source, in the order of the object's keys. *)
Record EntryPoint := { entry_name : string; entry_path : string }.

Definition entry : list EntryPoint := [
  {| entry_name := "app";
     entry_path := Path.join [src_assets folder; "scss/app.scss"] |};
  {| entry_name := "bootstrap";
     entry_path := Path.join [src_assets folder; "scss/bootstrap.scss"] |};
  {| entry_name := "icons";
     entry_path := Path.join [src_assets folder; "scss/icons.scss"] |}
].

(** [output.path] and [output.filename]. *)
Definition output_path : string := Path.join [dist_assets folder].
Definition output_filename : string := "chunk/[name].js".

(** [new MiniCssExtractPlugin({ filename })]. *)
Definition MiniCssExtractPlugin_filename : string := "css/[name].min.css".

(** A pattern of [CopyWebpackPlugin]. The configuration sets [from] and
    [to]; [force] is the plugin's option of that name, which the
    configuration leaves at its default. *)
Record CopyPattern := { from : string; to : string; force : bool }.

Definition pattern (dir : string) : CopyPattern := {|
  from := Path.join [src_assets folder; dir];
  to := Path.join [dist_assets folder; dir];
  force := false
|}.

Definition CopyWebpackPlugin_patterns : list CopyPattern := [
  pattern "images";
  pattern "js";
  pattern "libs";
  pattern "libs"
].

(** The options record the hook passes to [rtlcss.process]. *)
Record RtlcssOptions := { autoRename : bool; clean : bool }.

(** ** Compilation state and script effects *)

(** [new RawSource(text)] and its [source()] method. *)
Inductive Source := RawSource (text : string).

Definition source (s : Source) : string :=
  match s with RawSource text => text end.

(** The compilation object: [compilation.assets], file name to source. The
    diagnostics webpack keeps beside the assets are not part of the state. *)
Record Compilation := { assets : gmap string Source }.

Definition empty_compilation : Compilation := {| assets := ∅ |}.

(** An exception of the script: the TypeError of the engine, or the
    CssSyntaxError of the style sheet parser behind [rtlcss.process]. *)
Inductive JsError :=
| TypeError (msg : string)
| CssSyntaxError (msg : string).

Inductive Completion (A : Type) :=
| Normal (a : A)
| Throw (e : JsError).
Arguments Normal {A} a.
Arguments Throw {A} e.

(** A computation over the compilation that returns or throws; the state
    it leaves is the compilation as mutated up to that point. *)
Definition Js (A : Type) : Type := Compilation -> Completion A * Compilation.

Definition ret {A} (a : A) : Js A := fun c => (Normal a, c).

Definition throw {A} (e : JsError) : Js A := fun c => (Throw e, c).

Definition bind {A B} (m : Js A) (k : A -> Js B) : Js B :=
  fun c =>
    match m c with
    | (Normal a, c') => k a c'
    | (Throw e, c') => (Throw e, c')
    end.

Notation "x <- m ;;; k" := (bind m (fun x => k))
  (at level 100, m at next level, right associativity).
Notation "m ;;; k" := (bind m (fun _ => k))
  (at level 100, right associativity).

(** [list.forEach(f)]: the callback on every element in order; an exception
    leaves the loop. *)
Fixpoint forEach {A} (l : list A) (f : A -> Js unit) : Js unit :=
  match l with
  | [] => ret tt
  | x :: l' => f x ;;; forEach l' f
  end.

(** A call that returns or throws and leaves the compilation alone. *)
Definition completed {A} (r : Completion A) : Js A := fun c => (r, c).

(** [compilation.assets[name]]: the source, or [undefined]. *)
Definition asset (name : string) : Js (option Source) :=
  fun c => (Normal (assets c !! name), c).

Definition undefined_source : JsError :=
  TypeError "Cannot read properties of undefined (reading 'source')".

(** [x.source()] on what [compilation.assets[name]] gave. *)
Definition call_source (x : option Source) : Js string :=
  match x with
  | Some s => ret (source s)
  | None => throw undefined_source
  end.

(** [compilation.emitAsset(file, source)]: the asset is set under [file],
    also when the name is taken. *)
Definition emitAsset (file : string) (s : Source) : Js unit :=
  fun c => (Normal tt, {| assets := <[file := s]> (assets c) |}).

(** ** Sample data

    A stand-in for the flip library, a small compilation and a small
    project, on which the statements below are run. *)

Module Sample.

(** How often a character stands in a text. *)
Fixpoint count (a : ascii) (s : string) : nat :=
  match s with
  | EmptyString => 0
  | String b s' => (if Ascii.eqb a b then 1 else 0) + count a s'
  end.

(** Rewrites [left] to [right] in a text whose braces pair up, and throws
    on any other text; the options are not looked at. *)
Definition flip (css : string) (_ : RtlcssOptions) : Completion string :=
  if Nat.eqb (count "{" css) (count "}" css)
  then Normal (Template.replace 0 "left" "right" css)
  else Throw (CssSyntaxError "Unclosed block").

(** A source compiles to its own text; a source that is not there does
    not compile. *)
Definition scss (files : gmap string string) (path : string) : option string :=
  files !! path.

Definition chunk (_ : gmap string string) (name : string) : string :=
  "/* " +:+ name +:+ " */".

(** Both style sheets of [cssPairs] are there. *)
Definition both : Compilation := {|
  assets := {[ "css/app.min.css" := RawSource ".a{margin-left: 10px}";
               "css/bootstrap.min.css" := RawSource ".b{float:left}" ]}
|}.

(** The first style sheet of [cssPairs] is not there, the second is. *)
Definition no_app : Compilation := {|
  assets := {[ "css/bootstrap.min.css" := RawSource ".b{float:left}" ]}
|}.

(** The second style sheet of [cssPairs] is not there, the first is. *)
Definition no_bootstrap : Compilation := {|
  assets := {[ "css/app.min.css" := RawSource ".a{margin-left: 10px}" ]}
|}.

(** The first style sheet cannot be parsed, and the second is not there. *)
Definition unparsable_app : Compilation := {|
  assets := {[ "css/app.min.css" := RawSource ".a{margin-left: 10px" ]}
|}.

(** Both style sheets are there, and the second cannot be parsed. *)
Definition unparsable_bootstrap : Compilation := {|
  assets := {[ "css/app.min.css" := RawSource ".a{margin-left: 10px}";
               "css/bootstrap.min.css" := RawSource ".b{float:left" ]}
|}.

(** A name of [cssPairs]'s right column is taken before the hook runs. *)
Definition taken : Compilation := {|
  assets := {[ "css/app.min.css" := RawSource ".a{margin-left: 10px}";
               "css/bootstrap.min.css" := RawSource ".b{float:left}";
               "css/app-rtl.min.css" := RawSource "/* by hand */" ]}
|}.

Definition project : gmap string string :=
  {[ "src/assets/scss/app.scss" := ".a{margin-left: 10px}";
     "src/assets/scss/bootstrap.scss" := ".b{float:left}";
     "src/assets/scss/icons.scss" := ".i{left:0}";
     "src/assets/images/logo.png" := "PNG";
     "src/assets/libs/swiper/swiper.js" := "swiper" ]}.


(** The project without the source of the icons entry. *)
Definition project_without_icons : gmap string string :=
  {[ "src/assets/scss/app.scss" := ".a{margin-left: 10px}";
     "src/assets/scss/bootstrap.scss" := ".b{float:left}";
     "src/assets/images/logo.png" := "PNG";
     "src/assets/libs/swiper/swiper.js" := "swiper" ]}.

End Sample.

Section Pipeline.

Set Default Proof Using "Type".

(** [rtlcss.process(css, options)]: the flipped text, or the exception of
    the parser on a text it cannot read. *)
Variable rtlcss_process : string -> RtlcssOptions -> Completion string.

(** The callback of [cssPairs.forEach]. *)
Definition processPair (pair : CssPair) : Js unit :=
  x <- asset (ltr pair) ;;;
  ltrCss <- call_source x ;;;
  rtlCss <- completed
    (rtlcss_process ltrCss {| autoRename := false; clean := false |}) ;;;
  emitAsset (rtl pair) (RawSource rtlCss).

(** The callback tapped into [processAssets] under the name GenerateRTL. *)
Definition GenerateRTL : Js unit := forEach cssPairs processPair.

(** The sheet of a pair is among the assets, and the flip, both options
    off, returns [css] on its text. *)
Definition flips_to (c : Compilation) (q : CssPair) (css : string) : Prop :=
  exists s,
    assets c !! ltr q = Some s /\
    rtlcss_process (source s) {| autoRename := false; clean := false |} =
      Normal css.

(** *** The stages around the hook *)

(** The loader chain of the [.scss] rule (sass-loader, css-loader and the
    extracting loader) on an entry's source: the project files and the
    path of the entry to its CSS text, or nothing when the source is not
    there or does not compile. *)
Variable compile_scss : gmap string string -> string -> option string.

(** The script chunk webpack renders for an entry. *)
Variable render_chunk : gmap string string -> string -> string.

(** The output files of an entry: its script chunk, named by
    [output.filename], and its style sheet, named by the [filename] of
    [MiniCssExtractPlugin]. *)
Definition js_file (e : EntryPoint) : string :=
  Template.interpolate output_filename (entry_name e).

Definition css_file (e : EntryPoint) : string :=
  Template.interpolate MiniCssExtractPlugin_filename (entry_name e).

(** The chunk assets of one entry: its script chunk, and its sheet when
    its source compiled. *)
Definition createChunkAsset (files : gmap string string) (e : EntryPoint) : Js unit :=
  emitAsset (js_file e) (RawSource (render_chunk files (entry_name e))) ;;;
  match compile_scss files (entry_path e) with
  | Some css => emitAsset (css_file e) (RawSource css)
  | None => ret tt
  end.

(** The chunk assets of all entries: the state in which [processAssets]
    is called. *)
Definition createChunkAssets (files : gmap string string) (entries : list EntryPoint) : Js unit :=
  forEach entries (createChunkAsset files).

(** The asset a pattern makes of a project file: a file below [from] goes
    to the same relative path below [to], named relative to [output.path]. *)
Definition copy_target (p : CopyPattern) (file : string * string) : option (string * Source) :=
  rel ← Path.below (from p) file.1;
  dir ← Path.relative output_path (to p);
  Some (Path.join [dir; rel], RawSource file.2).

(** All assets a pattern makes of the project files. *)
Definition copied (files : gmap string string) (p : CopyPattern) : gmap string Source :=
  list_to_map (omap (copy_target p) (map_to_list files)).

(** One pattern of the copy plugin: an asset that exists already is kept,
    or replaced when the pattern sets [force]. Only the assets are
    modelled: what the plugin reports for a pattern that matches no file
    is no part of the state. *)
Definition copyPattern (files : gmap string string) (p : CopyPattern) : Js unit :=
  fun c =>
    (Normal tt,
     {| assets := if force p then copied files p ∪ assets c
                  else assets c ∪ copied files p |}).

(** [new CopyWebpackPlugin({ patterns })], the patterns in their order. *)
Definition CopyWebpackPlugin (files : gmap string string) (patterns : list CopyPattern) : Js unit :=
  forEach patterns (copyPattern files).

(** A callback tapped into a hook under a name and a stage; the stage is a
    number or [undefined]. *)
Record Tap := { tap_name : string; tap_stage : option Z; tap_fn : Js unit }.

(** The stage a tap is sorted by: 0 when its [stage] is no number. *)
Definition stage_of (t : Tap) : Z := default 0%Z (tap_stage t).

(** [Compilation.PROCESS_ASSETS_STAGE_ADDITIONAL], a property of the class. *)
Definition PROCESS_ASSETS_STAGE_ADDITIONAL : Z := -2000.

(** [compilation.PROCESS_ASSETS_STAGE_ADDITIONAL] as the hook reads it, off
    the compilation object, which has no property of that name. *)
Definition compilation_PROCESS_ASSETS_STAGE_ADDITIONAL : option Z := None.

(** [hook.tap]: the new tap goes behind the taps of a lower or equal stage. *)
Fixpoint tap (t : Tap) (taps : list Tap) : list Tap :=
  match taps with
  | [] => [t]
  | u :: taps' =>
      if (stage_of t <? stage_of u)%Z then t :: u :: taps'
      else u :: tap t taps'
  end.

(** The taps on [processAssets] each element of [plugins] makes when
    applied, in the order of the array: the extract plugin and the
    browser-sync plugin tap none; the copy plugin taps at the stage of the
    class, the hook at the stage it read off the compilation. *)
Definition plugins (files : gmap string string) : list (list Tap) := [
  [];
  [ {| tap_name := "CopyPlugin";
       tap_stage := Some PROCESS_ASSETS_STAGE_ADDITIONAL;
       tap_fn := CopyWebpackPlugin files CopyWebpackPlugin_patterns |} ];
  [];
  [ {| tap_name := "GenerateRTL";
       tap_stage := compilation_PROCESS_ASSETS_STAGE_ADDITIONAL;
       tap_fn := GenerateRTL |} ]
].

(** The taps of [processAssets] once every plugin is applied. *)
Definition processAssets (files : gmap string string) : list Tap :=
  foldl (fun taps t => tap t taps) [] (concat (plugins files)).

(** [hook.call]: the callbacks in the order of the taps. *)
Definition call (taps : list Tap) : Js unit := forEach taps tap_fn.

(** The compilation of one build: the chunk assets of every entry, then
    the taps of [processAssets]. *)
Definition seal (files : gmap string string) : Js unit :=
  createChunkAssets files entry ;;; call (processAssets files).

(** Writing the assets into the output directory, file name (relative to
    [output.path]) to content: a file an asset names is overwritten. *)
Definition emitAssets (c : Compilation) (out : gmap string string) : gmap string string :=
  (source <$> assets c) ∪ out.

(** One build over the project files and the output directory as found:
    the directory as the build leaves it, or the exception that ended the
    compilation before anything was written. What the build reports
    beside that is not part of the result. *)
Definition build (files out : gmap string string) : Completion (gmap string string) :=
  match seal files empty_compilation with
  | (Normal _, c) => Normal (emitAssets c out)
  | (Throw e, _) => Throw e
  end.

(** The taps that are called before the tap of a given name. *)
Fixpoint taps_before (name : string) (taps : list Tap) : list Tap :=
  match taps with
  | [] => []
  | t :: taps' =>
      if String.eqb (tap_name t) name then [] else t :: taps_before name taps'
  end.

(** The part of [seal] that is over when the tap of GenerateRTL is called. *)
Definition before_GenerateRTL (files : gmap string string) : Js unit :=
  createChunkAssets files entry ;;;
  call (taps_before "GenerateRTL" (processAssets files)).

(** A pattern with the plugin's [force] option set: what it copies
    replaces the assets that are there. *)
Definition forced (p : CopyPattern) : CopyPattern :=
  {| from := from p; to := to p; force := true |}.

(** The copy patterns with the [libs] directory listed once. *)
Definition patterns_listed_once : list CopyPattern := [
  pattern "images";
  pattern "js";
  pattern "libs"
].

(** The sheets the table reads are sheets of entries whose source
    compiles, and the flip, both options off, returns on their text. *)
Definition flippable (files : gmap string string) : Prop :=
  forall q, q ∈ cssPairs ->
    exists e css r,
      e ∈ entry /\
      ltr q = css_file e /\
      compile_scss files (entry_path e) = Some css /\
      rtlcss_process css {| autoRename := false; clean := false |} = Normal r.

(** ** File names *)

Lemma css_file_name (e : EntryPoint) :
  css_file e = "css/" +:+ entry_name e +:+ ".min.css".
Proof. reflexivity. Qed.

Lemma js_file_name (e : EntryPoint) :
  js_file e = "chunk/" +:+ entry_name e +:+ ".js".
Proof. reflexivity. Qed.

Lemma string_length_app (s t : string) :
  String.length (s +:+ t) = String.length s + String.length t.
Proof.
  induction s as [|a s IH]; [reflexivity|].
  change (S (String.length (s +:+ t)) = S (String.length s + String.length t)).
  now rewrite IH.
Qed.

(** A common suffix cancels. *)
Lemma string_app_inv_tail (s1 s2 t : string) :
  s1 +:+ t = s2 +:+ t -> s1 = s2.
Proof.
  revert s2. induction s1 as [|a s1 IH]; intros [|b s2] H.
  - reflexivity.
  - apply (f_equal String.length) in H.
    rewrite !string_length_app in H. cbn in H. lia.
  - apply (f_equal String.length) in H.
    rewrite !string_length_app in H. cbn in H. lia.
  - change (String a (s1 +:+ t) = String b (s2 +:+ t)) in H.
    injection H as -> H. f_equal. now apply IH.
Qed.

Lemma css_file_inj (e1 e2 : EntryPoint) :
  css_file e1 = css_file e2 -> entry_name e1 = entry_name e2.
Proof.
  rewrite !css_file_name. intros H.
  apply (inj (String.app "css/")) in H.
  now apply string_app_inv_tail in H.
Qed.

Lemma js_file_inj (e1 e2 : EntryPoint) :
  js_file e1 = js_file e2 -> entry_name e1 = entry_name e2.
Proof.
  rewrite !js_file_name. intros H.
  apply (inj (String.app "chunk/")) in H.
  now apply string_app_inv_tail in H.
Qed.

Lemma css_file_not_js (e1 e2 : EntryPoint) : css_file e1 <> js_file e2.
Proof. rewrite css_file_name, js_file_name. intros H. cbv in H. discriminate H. Qed.

(** ** The hook on one pair *)

Lemma processPair_some (p : CssPair) (c : Compilation) (s : Source) (css : string) :
  assets c !! ltr p = Some s ->
  rtlcss_process (source s) {| autoRename := false; clean := false |} =
    Normal css ->
  processPair p c =
    (Normal tt, {| assets := <[rtl p := RawSource css]> (assets c) |}).
Proof.
  intros H Hflip. unfold processPair, bind, asset. rewrite H.
  unfold call_source, ret, completed. now rewrite Hflip.
Qed.

Lemma processPair_flip_throws (p : CssPair) (c : Compilation) (s : Source) (e : JsError) :
  assets c !! ltr p = Some s ->
  rtlcss_process (source s) {| autoRename := false; clean := false |} =
    Throw e ->
  processPair p c = (Throw e, c).
Proof.
  intros H Hflip. unfold processPair, bind, asset. rewrite H.
  unfold call_source, ret, completed. now rewrite Hflip.
Qed.

Lemma processPair_none (p : CssPair) (c : Compilation) :
  assets c !! ltr p = None ->
  processPair p c = (Throw undefined_source, c).
Proof. intros H. unfold processPair, bind, asset. now rewrite H. Qed.

(** A pair leaves every name but its own [rtl] as it was. *)
Lemma processPair_frame (p : CssPair) (c : Compilation) (n : string) :
  n <> rtl p ->
  assets (processPair p c).2 !! n = assets c !! n.
Proof.
  intros Hn. destruct (assets c !! ltr p) as [s|] eqn:E.
  - destruct (rtlcss_process (source s) {| autoRename := false; clean := false |})
      as [css|e] eqn:Hflip.
    + rewrite (processPair_some _ _ _ _ E Hflip). cbn.
      now rewrite lookup_insert_ne.
    + now rewrite (processPair_flip_throws _ _ _ _ E Hflip).
  - now rewrite (processPair_none _ _ E).
Qed.

(** The loop over a list that is split in two. *)
Lemma forEach_app {A} (l1 l2 : list A) (f : A -> Js unit) (c : Compilation) :
  forEach (l1 ++ l2) f c =
    match forEach l1 f c with
    | (Normal _, c') => forEach l2 f c'
    | (Throw e, c') => (Throw e, c')
    end.
Proof.
  revert c. induction l1 as [|x l1 IH]; intros c; [reflexivity|].
  cbn. unfold bind. destruct (f x c) as [[[]|e] c']; [apply IH | reflexivity].
Qed.

(** The loop, whether it returns or throws, leaves every name outside the
    [rtl] column as it was. *)
Lemma forEach_frame (pairs : list CssPair) (c : Compilation) (n : string) :
  n ∉ rtl <$> pairs ->
  assets (forEach pairs processPair c).2 !! n = assets c !! n.
Proof.
  revert c. induction pairs as [|p pairs IH]; intros c Hn; [reflexivity|].
  rewrite fmap_cons in Hn. apply not_elem_of_cons in Hn as [Hp Hn].
  cbn. unfold bind.
  pose proof (processPair_frame p c n Hp) as Hf.
  destruct (processPair p c) as [[[]|e] c1]; cbn in Hf.
  - now rewrite IH.
  - exact Hf.
Qed.

(** Pairs whose sources are all there and flip, over a table in which no
    [rtl] name is listed twice or is the [ltr] name of a pair: the loop
    returns and every pair has its flipped sheet. *)
Lemma forEach_processed (pairs : list CssPair) (c : Compilation) :
  NoDup (rtl <$> pairs) ->
  (forall q, q ∈ pairs -> ltr q ∉ rtl <$> pairs) ->
  (forall q, q ∈ pairs -> exists css, flips_to c q css) ->
  exists c',
    forEach pairs processPair c = (Normal tt, c') /\
    forall q css, q ∈ pairs -> flips_to c q css ->
      assets c' !! rtl q = Some (RawSource css).
Proof.
  revert c. induction pairs as [|p pairs IH]; intros c Hnd Hlr Hsrc.
  - exists c. split; [reflexivity|]. intros q css Hq. now apply elem_of_nil in Hq.
  - rewrite fmap_cons in Hnd. apply NoDup_cons in Hnd as [Hp Hnd].
    destruct (Hsrc p) as (cssp & sp & Hsp & Hflip); [left|].
    pose proof (processPair_some _ _ _ _ Hsp Hflip) as Hstep.
    set (c1 := {| assets := <[rtl p := RawSource cssp]> (assets c) |}) in *.
    assert (Hkeep : forall q, q ∈ p :: pairs -> assets c1 !! ltr q = assets c !! ltr q).
    { intros q Hq. cbn. apply lookup_insert_ne. intros Heq.
      apply (Hlr q Hq). rewrite fmap_cons, Heq. left. }
    assert (Hflips : forall q css, q ∈ p :: pairs ->
              flips_to c1 q css <-> flips_to c q css).
    { intros q css Hq. unfold flips_to. now rewrite (Hkeep q Hq). }
    destruct (IH c1) as (c' & Hrun & Hall).
    + exact Hnd.
    + intros q Hq Hin. apply (Hlr q); [now right|]. rewrite fmap_cons. now right.
    + intros q Hq. destruct (Hsrc q) as [css Hcss]; [now right|].
      exists css. apply Hflips; [now right | exact Hcss].
    + exists c'. split.
      * cbn. unfold bind. now rewrite Hstep.
      * intros q css Hq Hcss. apply elem_of_cons in Hq as [->|Hq].
        -- pose proof (forEach_frame pairs c1 (rtl p) Hp) as Hf.
           rewrite Hrun in Hf. cbn in Hf. rewrite Hf, lookup_insert_eq.
           destruct Hcss as (s & Hs & Hflip').
           rewrite Hsp in Hs. injection Hs as <-. congruence.
        -- apply Hall; [exact Hq|]. apply Hflips; [now right | exact Hcss].
Qed.

(** The loop throws at the first pair whose source is not there, in the
    state the pairs before it left. *)
Lemma forEach_throws (done rest : list CssPair) (p : CssPair) (c c1 : Compilation) :
  forEach done processPair c = (Normal tt, c1) ->
  assets c1 !! ltr p = None ->
  forEach (done ++ p :: rest) processPair c = (Throw undefined_source, c1).
Proof.
  intros Hdone Hp. rewrite forEach_app, Hdone. cbn. unfold bind.
  now rewrite (processPair_none _ _ Hp).
Qed.

(** The loop throws what the flip throws at the first sheet it cannot
    read, in the state the pairs before it left. *)
Lemma forEach_flip_throws
    (done rest : list CssPair) (p : CssPair) (c c1 : Compilation)
    (s : Source) (e : JsError) :
  forEach done processPair c = (Normal tt, c1) ->
  assets c1 !! ltr p = Some s ->
  rtlcss_process (source s) {| autoRename := false; clean := false |} =
    Throw e ->
  forEach (done ++ p :: rest) processPair c = (Throw e, c1).
Proof.
  intros Hdone Hp Hflip. rewrite forEach_app, Hdone. cbn. unfold bind.
  now rewrite (processPair_flip_throws _ _ _ _ Hp Hflip).
Qed.

(** The table of the configuration is of that shape. *)
Lemma cssPairs_rtl_NoDup : NoDup (rtl <$> cssPairs).
Proof. apply (bool_decide_unpack _). vm_compute. exact I. Qed.

Lemma cssPairs_ltr_not_rtl (q : CssPair) : q ∈ cssPairs -> ltr q ∉ rtl <$> cssPairs.
Proof.
  intros Hq. unfold cssPairs in *.
  repeat (apply elem_of_cons in Hq as [->|Hq]);
    [| |now apply elem_of_nil in Hq];
    apply (bool_decide_unpack _); vm_compute; exact I.
Qed.

(** What the table gives for a part of it. *)
Lemma cssPairs_prefix (done rest : list CssPair) :
  cssPairs = done ++ rest ->
  NoDup (rtl <$> done) /\
  NoDup (rtl <$> rest) /\
  (forall q, q ∈ done -> ltr q ∉ rtl <$> done) /\
  (forall q, q ∈ done -> rtl q ∉ rtl <$> rest) /\
  (forall q, q ∈ rest -> ltr q ∉ rtl <$> done).
Proof.
  intros Hsplit.
  pose proof cssPairs_rtl_NoDup as Hnd.
  pose proof cssPairs_ltr_not_rtl as Hlr.
  rewrite Hsplit in Hnd, Hlr. rewrite fmap_app in Hnd.
  apply NoDup_app in Hnd as (Hd & Hdr & Hr).
  repeat split; [exact Hd | exact Hr | | |].
  - intros q Hq Hin. apply (Hlr q); [apply elem_of_app; now left|].
    rewrite fmap_app. apply elem_of_app. now left.
  - intros q Hq. apply Hdr. now apply list_elem_of_fmap_2.
  - intros q Hq Hin. apply (Hlr q); [apply elem_of_app; now right|].
    rewrite fmap_app. apply elem_of_app. now left.
Qed.

(** ** The hook on the table *)

(** C1 (as amended): when the style sheet of a pair is not among the
    assets, and the sheets of the pairs listed before it are there and the
    flip returned on them, the hook does not return: it throws the
    TypeError of reading [source] of [undefined] at that pair. The pairs
    listed before it are processed, each with its flipped sheet under its
    [rtl] name; every other name, so the [rtl] names of that pair and of
    the pairs after it, is as it was before the hook. *)
Theorem GenerateRTL_throws_on_missing_source
    (c : Compilation) (done rest : list CssPair) (p : CssPair) :
  cssPairs = done ++ p :: rest ->
  (forall q, q ∈ done -> exists css, flips_to c q css) ->
  assets c !! ltr p = None ->
  exists c',
    GenerateRTL c = (Throw undefined_source, c') /\
    (forall q css, q ∈ done -> flips_to c q css ->
       assets c' !! rtl q = Some (RawSource css)) /\
    (forall n, n ∉ rtl <$> done -> assets c' !! n = assets c !! n).
Proof.
  intros Hsplit Hdone Hp.
  destruct (cssPairs_prefix _ _ Hsplit) as (Hnd & _ & Hlr & _ & Hrest).
  destruct (forEach_processed done c Hnd Hlr Hdone) as (c1 & Hrun & Hall).
  assert (Hframe : forall n, n ∉ rtl <$> done -> assets c1 !! n = assets c !! n).
  { intros n Hn. pose proof (forEach_frame done c n Hn) as Hf.
    now rewrite Hrun in Hf. }
  exists c1. split; [|split; [exact Hall | exact Hframe]].
  unfold GenerateRTL. rewrite Hsplit. apply forEach_throws; [exact Hrun|].
  rewrite Hframe; [exact Hp|]. apply Hrest. left.
Qed.

(** C4 (as amended): for a pair of the table whose style sheet is among the
    assets and on whose text the flip returns, and with the sheets of all
    pairs listed before it there and flipped too, the hook sets under the
    pair's [rtl] name the raw source of what [rtlcss.process] returned on
    the sheet's text with [autoRename] and [clean] both off; the asset is
    a new one when no asset had that name before the hook. *)
Theorem GenerateRTL_registers_flipped
    (c : Compilation) (done rest : list CssPair) (p : CssPair)
    (s : Source) (css : string) :
  cssPairs = done ++ p :: rest ->
  (forall q, q ∈ done -> exists css', flips_to c q css') ->
  assets c !! ltr p = Some s ->
  rtlcss_process (source s) {| autoRename := false; clean := false |} =
    Normal css ->
  assets (GenerateRTL c).2 !! rtl p = Some (RawSource css) /\
  (assets c !! rtl p = None ->
   rtl p ∈ dom (assets (GenerateRTL c).2) ∖ dom (assets c)).
Proof.
  intros Hsplit Hdone Hp Hflip.
  assert (Hset : assets (GenerateRTL c).2 !! rtl p = Some (RawSource css)).
  { assert (Hsplit' : cssPairs = (done ++ [p]) ++ rest) by now rewrite <- app_assoc.
    destruct (cssPairs_prefix _ _ Hsplit') as (Hnd & _ & Hlr & Hfresh & _).
    destruct (forEach_processed (done ++ [p]) c Hnd Hlr) as (c1 & Hrun & Hall).
    { intros q Hq. apply elem_of_app in Hq as [Hq|Hq]; [now apply Hdone|].
      apply list_elem_of_singleton in Hq as ->. exists css, s. now split. }
    unfold GenerateRTL. rewrite Hsplit', forEach_app, Hrun.
    rewrite forEach_frame.
    - apply Hall; [apply elem_of_app; right; left|]. exists s. now split.
    - apply Hfresh. apply elem_of_app. right. left. }
  split; [exact Hset|]. intros Hfree.
  apply elem_of_difference. split.
  - apply elem_of_dom. now rewrite Hset.
  - now apply not_elem_of_dom.
Qed.

(** ** The chunk assets *)

Lemma createChunkAsset_run (files : gmap string string) (e : EntryPoint) (c : Compilation) :
  createChunkAsset files e c =
    (Normal tt,
     {| assets :=
          match compile_scss files (entry_path e) with
          | Some css =>
              <[css_file e := RawSource css]>
                (<[js_file e := RawSource (render_chunk files (entry_name e))]>
                   (assets c))
          | None =>
              <[js_file e := RawSource (render_chunk files (entry_name e))]>
                (assets c)
          end |}).
Proof.
  unfold createChunkAsset, bind, emitAsset, ret.
  now destruct (compile_scss files (entry_path e)).
Qed.

Lemma createChunkAssets_returns
    (files : gmap string string) (entries : list EntryPoint) (c : Compilation) :
  (createChunkAssets files entries c).1 = Normal tt.
Proof.
  revert c. induction entries as [|e entries IH]; intros c; [reflexivity|].
  unfold createChunkAssets. cbn [forEach]. unfold bind.
  rewrite createChunkAsset_run. apply IH.
Qed.

(** A name that is no output file of the entries is as it was. *)
Lemma createChunkAssets_frame
    (files : gmap string string) (entries : list EntryPoint) (c : Compilation) (n : string) :
  n ∉ css_file <$> entries ->
  n ∉ js_file <$> entries ->
  assets (createChunkAssets files entries c).2 !! n = assets c !! n.
Proof.
  revert c. induction entries as [|e entries IH]; intros c Hc Hj; [reflexivity|].
  rewrite fmap_cons in Hc, Hj.
  apply not_elem_of_cons in Hc as [Hc1 Hc], Hj as [Hj1 Hj].
  unfold createChunkAssets. cbn [forEach]. unfold bind.
  rewrite createChunkAsset_run.
  fold (createChunkAssets files entries). rewrite IH by assumption. cbn.
  destruct (compile_scss files (entry_path e)); now rewrite !lookup_insert_ne.
Qed.

(** The names after the chunk assets of entries that all compile: those
    before, and the two output files of every entry. *)
Lemma createChunkAssets_dom
    (files : gmap string string) (entries : list EntryPoint) (c : Compilation) :
  (forall e, e ∈ entries -> is_Some (compile_scss files (entry_path e))) ->
  dom (assets (createChunkAssets files entries c).2) =
    dom (assets c) ∪ list_to_set (css_file <$> entries)
                   ∪ list_to_set (js_file <$> entries).
Proof.
  revert c. induction entries as [|e entries IH]; intros c Hall.
  - cbn. apply set_eq. intros x.
    rewrite !elem_of_union, elem_of_empty. clear. tauto.
  - unfold createChunkAssets. cbn [forEach]. unfold bind.
    rewrite createChunkAsset_run.
    fold (createChunkAssets files entries).
    rewrite IH by (intros x Hx; apply Hall; now right).
    destruct (Hall e) as [css Hcss]; [left|]. rewrite Hcss. cbn [assets].
    rewrite !dom_insert_L, !fmap_cons. cbn [list_to_set]. clear IH Hall Hcss.
    generalize (css_file e) (js_file e) (dom (assets c)).
    generalize (list_to_set (css_file <$> entries) : gset string).
    generalize (list_to_set (js_file <$> entries) : gset string).
    clear. intros J C D js css. apply set_eq. intros x.
    rewrite !elem_of_union, !elem_of_singleton. clear. tauto.
Qed.

(** Entries of distinct names: each has its script chunk, and its sheet
    exactly when its source compiled. *)
Lemma createChunkAssets_lookup
    (files : gmap string string) (entries : list EntryPoint) (c : Compilation) (e : EntryPoint) :
  NoDup (entry_name <$> entries) ->
  e ∈ entries ->
  assets (createChunkAssets files entries c).2 !! css_file e =
    match compile_scss files (entry_path e) with
    | Some css => Some (RawSource css)
    | None => assets c !! css_file e
    end /\
  assets (createChunkAssets files entries c).2 !! js_file e =
    Some (RawSource (render_chunk files (entry_name e))).
Proof.
  revert c. induction entries as [|x entries IH]; intros c Hnd He.
  { now apply elem_of_nil in He. }
  rewrite fmap_cons in Hnd. apply NoDup_cons in Hnd as [Hx Hnd].
  assert (Hfresh : forall y, y ∈ entries -> entry_name x <> entry_name y).
  { intros y Hy Heq. apply Hx. rewrite Heq. now apply list_elem_of_fmap_2. }
  assert (Hcss : css_file x ∉ css_file <$> entries).
  { intros Hin. apply list_elem_of_fmap_1 in Hin as (y & Heq & Hy).
    now apply (Hfresh y Hy), css_file_inj. }
  assert (Hcj : css_file x ∉ js_file <$> entries).
  { intros Hin. apply list_elem_of_fmap_1 in Hin as (y & Heq & Hy).
    now apply (css_file_not_js x y). }
  assert (Hjc : js_file x ∉ css_file <$> entries).
  { intros Hin. apply list_elem_of_fmap_1 in Hin as (y & Heq & Hy).
    symmetry in Heq. now apply (css_file_not_js y x). }
  assert (Hjs : js_file x ∉ js_file <$> entries).
  { intros Hin. apply list_elem_of_fmap_1 in Hin as (y & Heq & Hy).
    now apply (Hfresh y Hy), js_file_inj. }
  unfold createChunkAssets. cbn [forEach]. unfold bind.
  rewrite createChunkAsset_run. fold (createChunkAssets files entries).
  apply elem_of_cons in He as [->|He].
  - rewrite !createChunkAssets_frame by assumption. cbn [assets].
    destruct (compile_scss files (entry_path x)) as [css|]; split.
    + apply lookup_insert_eq.
    + rewrite lookup_insert_ne by apply css_file_not_js. apply lookup_insert_eq.
    + apply lookup_insert_ne. intros Heq. now apply (css_file_not_js x x).
    + apply lookup_insert_eq.
  - pose proof (fun c' => IH c' Hnd He) as IH'. split; [|apply IH'].
    rewrite (proj1 (IH' _)). destruct (compile_scss files (entry_path e)); [reflexivity|].
    cbn [assets].
    assert (Hne : entry_name x <> entry_name e) by now apply Hfresh.
    destruct (compile_scss files (entry_path x)).
    + rewrite !lookup_insert_ne; [reflexivity| |].
      * intros Heq. now apply (css_file_not_js e x).
      * intros Heq. now apply Hne, css_file_inj.
    + rewrite lookup_insert_ne; [reflexivity|].
      intros Heq. now apply (css_file_not_js e x).
Qed.

(** ** The copy plugin *)

Lemma copyPattern_run (files : gmap string string) (p : CopyPattern) (c : Compilation) :
  copyPattern files p c =
    (Normal tt,
     {| assets := if force p then copied files p ∪ assets c
                  else assets c ∪ copied files p |}).
Proof. reflexivity. Qed.

Lemma CopyWebpackPlugin_returns
    (files : gmap string string) (patterns : list CopyPattern) (c : Compilation) :
  (CopyWebpackPlugin files patterns c).1 = Normal tt.
Proof.
  revert c. induction patterns as [|p patterns IH]; intros c; [reflexivity|].
  unfold CopyWebpackPlugin. cbn [forEach]. unfold bind.
  rewrite copyPattern_run. apply IH.
Qed.

(** A name no pattern copies to is as it was. *)
Lemma CopyWebpackPlugin_frame
    (files : gmap string string) (patterns : list CopyPattern) (c : Compilation) (n : string) :
  (forall p, p ∈ patterns -> copied files p !! n = None) ->
  assets (CopyWebpackPlugin files patterns c).2 !! n = assets c !! n.
Proof.
  revert c. induction patterns as [|p patterns IH]; intros c Hn; [reflexivity|].
  unfold CopyWebpackPlugin. cbn [forEach]. unfold bind.
  rewrite copyPattern_run. fold (CopyWebpackPlugin files patterns).
  rewrite IH.
  - cbn. pose proof (Hn p (list_elem_of_here _ _)) as Hp.
    destruct (force p); [now apply lookup_union_r | now apply lookup_union_l].
  - intros q Hq. apply Hn. now right.
Qed.

(** Patterns that do not force keep every asset that is there. *)
Lemma CopyWebpackPlugin_keeps
    (files : gmap string string) (patterns : list CopyPattern) (c : Compilation)
    (n : string) (s : Source) :
  (forall p, p ∈ patterns -> force p = false) ->
  assets c !! n = Some s ->
  assets (CopyWebpackPlugin files patterns c).2 !! n = Some s.
Proof.
  revert c. induction patterns as [|p patterns IH]; intros c Hf Hn; [exact Hn|].
  unfold CopyWebpackPlugin. cbn [forEach]. unfold bind.
  rewrite copyPattern_run. fold (CopyWebpackPlugin files patterns).
  apply IH.
  - intros q Hq. apply Hf. now right.
  - cbn. rewrite (Hf p (list_elem_of_here _ _)). now apply lookup_union_Some_l.
Qed.

(** Where a copied asset comes from. *)
Lemma copied_inv (files : gmap string string) (p : CopyPattern) (n : string) (s : Source) :
  copied files p !! n = Some s ->
  exists file rel dir,
    files !! file = Some (source s) /\
    Path.below (from p) file = Some rel /\
    Path.relative output_path (to p) = Some dir /\
    n = Path.join [dir; rel].
Proof.
  intros H. apply elem_of_list_to_map_2 in H.
  apply list_elem_of_omap in H as ([file content] & Hin & Ht).
  apply elem_of_map_to_list in Hin.
  unfold copy_target in Ht. cbn [fst snd] in Ht.
  destruct (Path.below (from p) file) as [rel|] eqn:Hrel; [|discriminate Ht].
  destruct (Path.relative output_path (to p)) as [dir|] eqn:Hdir; [|discriminate Ht].
  cbn in Ht. injection Ht as <- <-. now exists file, rel, dir.
Qed.

(** A path joined to a directory of one proper segment starts like the
    directory. *)
Lemma join_head (a : ascii) (d rel : string) :
  Path.segments (String a d) = [String a d] ->
  Path.proper (String a d) = true ->
  exists t, Path.join [String a d; rel] = String a t.
Proof.
  intros Hseg Hproper. unfold Path.join. cbn [flat_map].
  rewrite Hseg. cbn [app List.filter]. rewrite Hproper. cbn [String.concat].
  destruct (List.filter Path.proper (Path.segments rel ++ [])); eexists; reflexivity.
Qed.

(** The patterns of the configuration copy to nothing that starts with
    the letter of [css] and [chunk]. *)
Lemma copied_not_c (files : gmap string string) (p : CopyPattern) (t : string) :
  p ∈ CopyWebpackPlugin_patterns ->
  copied files p !! String "c" t = None.
Proof.
  intros Hp. destruct (copied files p !! String "c" t) as [s|] eqn:E; [|reflexivity].
  exfalso. apply copied_inv in E as (file & rel & dir & _ & _ & Hdir & Hn).
  unfold CopyWebpackPlugin_patterns in Hp.
  repeat (apply elem_of_cons in Hp as [->|Hp]); [| | | |now apply elem_of_nil in Hp];
    vm_compute in Hdir; injection Hdir as <-;
    match type of Hn with
    | _ = Path.join [String ?a ?d; _] =>
        destruct (join_head a d rel eq_refl eq_refl) as [u Hu]
    end;
    rewrite Hu in Hn; discriminate Hn.
Qed.

Lemma patterns_do_not_force (p : CopyPattern) :
  p ∈ CopyWebpackPlugin_patterns -> force p = false.
Proof.
  intros Hp. unfold CopyWebpackPlugin_patterns in Hp.
  repeat (apply elem_of_cons in Hp as [->|Hp]); try reflexivity.
  now apply elem_of_nil in Hp.
Qed.

(** A list of patterns whose last pattern is listed once more copies what
    the list copies, whether the pattern keeps or replaces what is there. *)
Lemma CopyWebpackPlugin_repeated
    (files : gmap string string) (l : list CopyPattern) (p : CopyPattern) (c : Compilation) :
  CopyWebpackPlugin files (l ++ [p; p]) c = CopyWebpackPlugin files (l ++ [p]) c.
Proof.
  unfold CopyWebpackPlugin. rewrite !forEach_app.
  destruct (forEach l (copyPattern files) c) as [[[]|e] c1]; [|reflexivity].
  cbn [forEach]. unfold bind. rewrite !copyPattern_run. cbn [assets].
  unfold ret. do 2 f_equal. destruct (force p).
  - now rewrite (assoc_L (∪)), (idemp_L (∪)).
  - now rewrite <- (assoc_L (∪)), (idemp_L (∪)).
Qed.

(** ** The stages of a build *)

Lemma run_eq {A} (m : Js A) (c : Compilation) (a : A) :
  (m c).1 = Normal a -> m c = (Normal a, (m c).2).
Proof. destruct (m c) as [r c']. cbn. now intros ->. Qed.

(** The copy plugin taps at stage -2000 and the hook at stage 0, so the
    copy plugin is called first. *)
Lemma processAssets_taps (files : gmap string string) :
  processAssets files =
    [ {| tap_name := "CopyPlugin";
         tap_stage := Some PROCESS_ASSETS_STAGE_ADDITIONAL;
         tap_fn := CopyWebpackPlugin files CopyWebpackPlugin_patterns |};
      {| tap_name := "GenerateRTL";
         tap_stage := compilation_PROCESS_ASSETS_STAGE_ADDITIONAL;
         tap_fn := GenerateRTL |} ].
Proof. reflexivity. Qed.

(** What is over before the hook is called. *)
Lemma before_GenerateRTL_run (files : gmap string string) (c : Compilation) :
  before_GenerateRTL files c =
    (Normal tt,
     (CopyWebpackPlugin files CopyWebpackPlugin_patterns
        (createChunkAssets files entry c).2).2).
Proof.
  unfold before_GenerateRTL. rewrite processAssets_taps.
  change (taps_before "GenerateRTL" _) with
    [ {| tap_name := "CopyPlugin";
         tap_stage := Some PROCESS_ASSETS_STAGE_ADDITIONAL;
         tap_fn := CopyWebpackPlugin files CopyWebpackPlugin_patterns |} ].
  unfold call, bind. cbn [forEach tap_fn]. unfold bind.
  rewrite (run_eq _ _ _ (createChunkAssets_returns files entry c)).
  now rewrite (run_eq _ _ _ (CopyWebpackPlugin_returns files _ _)).
Qed.

(** The tap of GenerateRTL is the last thing [seal] does, on the state the
    stages before it left. *)
Lemma seal_after (files : gmap string string) (c : Compilation) :
  seal files c = GenerateRTL (before_GenerateRTL files c).2.
Proof.
  rewrite before_GenerateRTL_run. cbn [snd].
  unfold seal. rewrite processAssets_taps.
  unfold call, bind. cbn [forEach tap_fn]. unfold bind.
  rewrite (run_eq _ _ _ (createChunkAssets_returns files entry c)).
  rewrite (run_eq _ _ _ (CopyWebpackPlugin_returns files _ _)).
  now destruct (GenerateRTL _) as [[[]|e] c'].
Qed.

Lemma entry_names_NoDup : NoDup (entry_name <$> entry).
Proof. apply (bool_decide_unpack _). vm_compute. exact I. Qed.

(** When the hook is entered, every entry that compiled has its sheet. *)
Lemma hook_entry_css (files : gmap string string) (e : EntryPoint) (css : string) :
  e ∈ entry ->
  compile_scss files (entry_path e) = Some css ->
  assets (before_GenerateRTL files empty_compilation).2 !! css_file e =
    Some (RawSource css).
Proof.
  intros He Hcss. rewrite before_GenerateRTL_run. cbn [snd].
  apply CopyWebpackPlugin_keeps; [apply patterns_do_not_force|].
  pose proof (proj1 (createChunkAssets_lookup files entry empty_compilation e
                       entry_names_NoDup He)) as H.
  now rewrite Hcss in H.
Qed.

(** When the hook is entered, an entry that did not compile has none. *)
Lemma hook_entry_no_css (files : gmap string string) (e : EntryPoint) :
  e ∈ entry ->
  compile_scss files (entry_path e) = None ->
  assets (before_GenerateRTL files empty_compilation).2 !! css_file e = None.
Proof.
  intros He Hcss. rewrite before_GenerateRTL_run. cbn [snd].
  rewrite CopyWebpackPlugin_frame.
  - pose proof (proj1 (createChunkAssets_lookup files entry empty_compilation e
                         entry_names_NoDup He)) as H.
    now rewrite Hcss in H.
  - intros p Hp. rewrite css_file_name.
    exact (copied_not_c files p _ Hp).
Qed.

(** When the hook is entered, every entry has its script chunk. *)
Lemma hook_entry_js (files : gmap string string) (e : EntryPoint) :
  e ∈ entry ->
  assets (before_GenerateRTL files empty_compilation).2 !! js_file e =
    Some (RawSource (render_chunk files (entry_name e))).
Proof.
  intros He. rewrite before_GenerateRTL_run. cbn [snd].
  apply CopyWebpackPlugin_keeps; [apply patterns_do_not_force|].
  exact (proj2 (createChunkAssets_lookup files entry empty_compilation e
                  entry_names_NoDup He)).
Qed.

(** When the hook is entered, a name that starts with the letter of [css]
    and is no output file of an entry is free. *)
Lemma hook_entry_free (files : gmap string string) (t : string) :
  String "c" t ∉ css_file <$> entry ->
  String "c" t ∉ js_file <$> entry ->
  assets (before_GenerateRTL files empty_compilation).2 !! String "c" t = None.
Proof.
  intros Hc Hj. rewrite before_GenerateRTL_run. cbn [snd].
  rewrite CopyWebpackPlugin_frame by (intros p Hp; now apply copied_not_c).
  now rewrite createChunkAssets_frame.
Qed.

(** The sheet a pair of the table reads is the sheet of an entry. *)
Lemma cssPairs_entries (q : CssPair) :
  q ∈ cssPairs -> exists e, e ∈ entry /\ ltr q = css_file e.
Proof.
  intros Hq. unfold cssPairs in Hq.
  repeat (apply elem_of_cons in Hq as [->|Hq]); [| |now apply elem_of_nil in Hq].
  - exists {| entry_name := "app";
              entry_path := Path.join [src_assets folder; "scss/app.scss"] |}.
    split; [left | reflexivity].
  - exists {| entry_name := "bootstrap";
              entry_path := Path.join [src_assets folder; "scss/bootstrap.scss"] |}.
    split; [right; left | reflexivity].
Qed.

(** When the hook is entered, the names the table writes are free. *)
Lemma hook_entry_rtl_free (files : gmap string string) (q : CssPair) :
  q ∈ cssPairs ->
  assets (before_GenerateRTL files empty_compilation).2 !! rtl q = None.
Proof.
  intros Hq. unfold cssPairs in Hq.
  repeat (apply elem_of_cons in Hq as [->|Hq]); [| |now apply elem_of_nil in Hq];
    apply hook_entry_free; apply (bool_decide_unpack _); vm_compute; exact I.
Qed.

(** When the hook is entered, a pair flips exactly when its entry compiled
    to a text on which the flip returns. *)
Lemma hook_entry_flips (files : gmap string string) (q : CssPair) (r : string) :
  q ∈ cssPairs ->
  flips_to (before_GenerateRTL files empty_compilation).2 q r <->
  exists e css,
    e ∈ entry /\ ltr q = css_file e /\
    compile_scss files (entry_path e) = Some css /\
    rtlcss_process css {| autoRename := false; clean := false |} = Normal r.
Proof.
  intros Hq. split.
  - intros (s & Hs & Hflip).
    destruct (cssPairs_entries q Hq) as (e & He & Heq).
    exists e. rewrite Heq in Hs.
    destruct (compile_scss files (entry_path e)) as [css|] eqn:Hcss.
    + rewrite (hook_entry_css files e css He Hcss) in Hs. injection Hs as <-.
      now exists css.
    + rewrite (hook_entry_no_css files e He Hcss) in Hs. discriminate Hs.
  - intros (e & css & He & Heq & Hcss & Hflip).
    exists (RawSource css). split; [|exact Hflip].
    rewrite Heq. now apply hook_entry_css.
Qed.


(** A loop that returned found every source and flipped it, over a table
    in which no [rtl] name is the [ltr] name of a pair. *)
Lemma forEach_returned (pairs : list CssPair) (c c' : Compilation) :
  (forall q, q ∈ pairs -> ltr q ∉ rtl <$> pairs) ->
  forEach pairs processPair c = (Normal tt, c') ->
  forall q, q ∈ pairs -> exists css, flips_to c q css.
Proof.
  revert c. induction pairs as [|p pairs IH]; intros c Hlr Hrun q Hq.
  { now apply elem_of_nil in Hq. }
  cbn in Hrun. unfold bind in Hrun.
  destruct (assets c !! ltr p) as [s|] eqn:E.
  - destruct (rtlcss_process (source s) {| autoRename := false; clean := false |})
      as [css|e] eqn:Hflip.
    + apply elem_of_cons in Hq as [->|Hq]; [exists css, s; now split|].
      rewrite (processPair_some _ _ _ _ E Hflip) in Hrun.
      destruct (IH _ (fun q Hq Hin => Hlr q (list_elem_of_further _ _ _ Hq)
                        (list_elem_of_further _ _ _ Hin)) Hrun q Hq)
        as (css' & s' & Hs' & Hflip').
      exists css', s'. split; [|exact Hflip'].
      cbn in Hs'. rewrite lookup_insert_ne in Hs'; [exact Hs'|].
      intros Heq. apply (Hlr q); [now right|]. rewrite fmap_cons, Heq. left.
    + rewrite (processPair_flip_throws _ _ _ _ E Hflip) in Hrun.
      discriminate Hrun.
  - rewrite (processPair_none _ _ E) in Hrun. discriminate Hrun.
Qed.

(** In a build whose table flips, the hook returns. *)
Lemma GenerateRTL_in_build (files : gmap string string) :
  flippable files ->
  exists c',
    GenerateRTL (before_GenerateRTL files empty_compilation).2 = (Normal tt, c') /\
    forall q css, q ∈ cssPairs ->
      flips_to (before_GenerateRTL files empty_compilation).2 q css ->
      assets c' !! rtl q = Some (RawSource css).
Proof.
  intros Hflip. apply forEach_processed.
  - apply cssPairs_rtl_NoDup.
  - apply cssPairs_ltr_not_rtl.
  - intros q Hq. destruct (Hflip q Hq) as (e & css & r & H).
    exists r. apply hook_entry_flips; [exact Hq|]. now exists e, css.
Qed.

(** A build whose hook returned has a table that flips. *)
Lemma GenerateRTL_returned_in_build (files : gmap string string) (c : Compilation) :
  GenerateRTL (before_GenerateRTL files empty_compilation).2 = (Normal tt, c) ->
  flippable files.
Proof.
  intros Hrun q Hq.
  destruct (forEach_returned cssPairs _ c cssPairs_ltr_not_rtl Hrun q Hq)
    as [r Hr].
  apply hook_entry_flips in Hr as (e & css & H); [|exact Hq].
  now exists e, css, r.
Qed.

(** A build keeps to its end what was there when the hook was entered. *)
Lemma seal_keeps (files : gmap string string) (n : string) (s : Source) :
  assets (before_GenerateRTL files empty_compilation).2 !! n = Some s ->
  assets (seal files empty_compilation).2 !! n = Some s.
Proof.
  intros Hn. rewrite seal_after. unfold GenerateRTL.
  rewrite forEach_frame; [exact Hn|].
  intros Hin. apply list_elem_of_fmap_1 in Hin as (q & -> & Hq).
  rewrite (hook_entry_rtl_free files q Hq) in Hn. discriminate Hn.
Qed.

(** The output directory after a build over it once more. *)
Lemma emitAssets_twice (c : Compilation) (out : gmap string string) :
  emitAssets c (emitAssets c out) = emitAssets c out.
Proof. unfold emitAssets. now rewrite (assoc_L (∪)), (idemp_L (∪)). Qed.

(** A build returns exactly when its hook does, with the assets of [seal]
    written out. *)
Lemma build_returns (files out o : gmap string string) :
  build files out = Normal o <->
  (seal files empty_compilation).1 = Normal tt /\
  o = emitAssets (seal files empty_compilation).2 out.
Proof.
  unfold build. destruct (seal files empty_compilation) as [[[]|e] c]; cbn.
  - split; [intros [= <-]; now split | intros [_ ->]; reflexivity].
  - split; [discriminate | intros [H _]; discriminate H].
Qed.

(** What a build wrote, at a name an asset holds. *)
Lemma build_lookup (files out o : gmap string string) (n : string) (s : Source) :
  build files out = Normal o ->
  assets (seal files empty_compilation).2 !! n = Some s ->
  o !! n = Some (source s).
Proof.
  intros [_ ->]%build_returns Hn. unfold emitAssets.
  apply lookup_union_Some_l. now rewrite lookup_fmap, Hn.
Qed.

(** A build whose table flips returns. *)
Lemma build_flippable (files out : gmap string string) :
  flippable files ->
  exists o, build files out = Normal o.
Proof.
  intros Hflip. destruct (GenerateRTL_in_build files Hflip) as (c & Hrun & _).
  exists (emitAssets c out). apply build_returns.
  rewrite seal_after, Hrun. now split.
Qed.

(** ** Paths *)

Lemma strip_prefix_spec (p s r : string) :
  Path.strip_prefix p s = Some r -> s = p +:+ r.
Proof.
  revert s. induction p as [|a p IH]; intros s H.
  - cbn in H. now injection H as ->.
  - destruct s as [|b s]; [discriminate H|]. cbn in H.
    destruct (Ascii.eqb a b) eqn:E; [|discriminate H].
    apply Ascii.eqb_eq in E as ->.
    change (String b s = String b (p +:+ r)). f_equal. now apply IH.
Qed.

Lemma strip_prefix_app (p r : string) :
  Path.strip_prefix p (p +:+ r) = Some r.
Proof.
  induction p as [|a p IH]; [reflexivity|].
  change (Path.strip_prefix (String a p) (String a (p +:+ r)) = Some r).
  cbn. now rewrite Ascii.eqb_refl.
Qed.

Lemma segments_not_nil (s : string) : Path.segments s <> [].
Proof.
  destruct s as [|c s]; [discriminate|]. cbn.
  destruct (Ascii.eqb c "/"); [discriminate|].
  destruct (Path.segments s); discriminate.
Qed.

(** The segments of two paths with a slash between them. *)
Lemma segments_slash (a b : string) :
  Path.segments (a +:+ String "/" b) = Path.segments a ++ Path.segments b.
Proof.
  induction a as [|c a IH]; [reflexivity|].
  change (Path.segments (String c (a +:+ String "/" b)) =
          Path.segments (String c a) ++ Path.segments b).
  cbn. rewrite IH. destruct (Ascii.eqb c "/"); [reflexivity|].
  pose proof (segments_not_nil a) as Hne.
  destruct (Path.segments a); [now destruct Hne | reflexivity].
Qed.

(** A path is its segments with slashes between them. *)
Lemma concat_segments (s : string) :
  String.concat "/" (Path.segments s) = s.
Proof.
  induction s as [|c s IH]; [reflexivity|]. cbn.
  pose proof (segments_not_nil s) as Hne.
  destruct (Ascii.eqb c "/") eqn:E.
  - apply Ascii.eqb_eq in E as ->.
    destruct (Path.segments s) as [|seg rest]; [now destruct Hne|].
    change (String "/" (String.concat "/" (seg :: rest)) = String "/" s).
    now rewrite IH.
  - destruct (Path.segments s) as [|seg rest]; [now destruct Hne|].
    destruct rest as [|seg' rest].
    + cbn in *. now rewrite IH.
    + change (String c (String.concat "/" (seg :: seg' :: rest)) = String c s).
      now rewrite IH.
Qed.

Lemma filter_proper (l : list string) :
  List.forallb Path.proper l = true -> List.filter Path.proper l = l.
Proof.
  induction l as [|x l IH]; [reflexivity|]. cbn.
  destruct (Path.proper x); [|discriminate]. cbn. intros H. now rewrite IH.
Qed.

(** Joining two normalised paths puts a slash between them. *)
Lemma join_normalised (dir rel : string) :
  Path.normalised dir = true ->
  Path.normalised rel = true ->
  Path.join [dir; rel] = dir +:+ "/" +:+ rel.
Proof.
  unfold Path.normalised, Path.join. intros Hd Hr. cbn [flat_map].
  rewrite app_nil_r, filter_proper by (rewrite List.forallb_app, Hd, Hr; reflexivity).
  change (dir +:+ "/" +:+ rel) with (dir +:+ String "/" rel).
  now rewrite <- segments_slash, concat_segments.
Qed.

(** What lies below a directory in a normalised path is normalised. *)
Lemma below_normalised (dir rel : string) :
  Path.normalised (dir +:+ "/" +:+ rel) = true -> Path.normalised rel = true.
Proof.
  unfold Path.normalised.
  change (dir +:+ "/" +:+ rel) with (dir +:+ String "/" rel).
  rewrite segments_slash, List.forallb_app. now intros [_ H]%andb_prop.
Qed.

Lemma below_spec (dir file rel : string) :
  Path.below dir file = Some rel <-> file = dir +:+ "/" +:+ rel.
Proof.
  unfold Path.below. split.
  - intros H. apply strip_prefix_spec in H. rewrite H.
    clear. induction dir as [|a dir IH]; [reflexivity|].
    change (String a ((dir +:+ "/") +:+ rel) = String a (dir +:+ "/" +:+ rel)).
    now rewrite IH.
  - intros ->. rewrite <- (strip_prefix_app (dir +:+ "/") rel). f_equal.
    clear. induction dir as [|a dir IH]; [reflexivity|].
    change (String a (dir +:+ "/" +:+ rel) = String a ((dir +:+ "/") +:+ rel)).
    now rewrite IH.
Qed.

(** ** More on the copy plugin *)

Lemma prefix_app (s t : string) : String.prefix s (s +:+ t) = true.
Proof.
  induction s as [|a s IH]; [now destruct t|].
  change (String.prefix (String a s) (String a (s +:+ t)) = true).
  cbn. now destruct (ascii_dec a a).
Qed.

Lemma prefix_refl (s : string) : String.prefix s s = true.
Proof.
  induction s as [|a s IH]; [reflexivity|]. cbn. now destruct (ascii_dec a a).
Qed.

(** A path joined to a directory of one proper segment starts with the
    directory. *)
Lemma join_prefix (dir rel : string) :
  Path.segments dir = [dir] ->
  Path.proper dir = true ->
  String.prefix dir (Path.join [dir; rel]) = true.
Proof.
  intros Hseg Hproper. unfold Path.join. cbn [flat_map].
  rewrite Hseg. cbn [app List.filter]. rewrite Hproper. cbn [String.concat].
  destruct (List.filter Path.proper (Path.segments rel ++ []));
    [apply prefix_refl | apply prefix_app].
Qed.

(** The patterns of the configuration are those of three directories. *)
Lemma patterns_dirs (p : CopyPattern) :
  p ∈ CopyWebpackPlugin_patterns ->
  exists dir, dir ∈ ["images"; "js"; "libs"] /\ p = pattern dir.
Proof.
  intros Hp. unfold CopyWebpackPlugin_patterns in Hp.
  repeat (apply elem_of_cons in Hp as [->|Hp]); [| | | |now apply elem_of_nil in Hp];
    eexists; (split; [|reflexivity]);
    rewrite !elem_of_cons; auto.
Qed.

Lemma dirs_patterns (dir : string) :
  dir ∈ ["images"; "js"; "libs"] -> pattern dir ∈ CopyWebpackPlugin_patterns.
Proof.
  intros Hd. unfold CopyWebpackPlugin_patterns.
  repeat (apply elem_of_cons in Hd as [->|Hd]); [| | |now apply elem_of_nil in Hd];
    rewrite !elem_of_cons; auto.
Qed.

(** Where the pattern of a directory copies from and to. *)
Lemma pattern_dir (dir : string) :
  dir ∈ ["images"; "js"; "libs"] ->
  from (pattern dir) = "src/assets" +:+ "/" +:+ dir /\
  Path.relative output_path (to (pattern dir)) = Some dir /\
  Path.normalised dir = true /\
  Path.segments dir = [dir] /\
  Path.proper dir = true.
Proof.
  intros Hd.
  repeat (apply elem_of_cons in Hd as [->|Hd]); [| | |now apply elem_of_nil in Hd];
    repeat split; reflexivity.
Qed.

(** An asset after the copy stage was there before it or is copied by a
    pattern. *)
Lemma CopyWebpackPlugin_lookup_inv
    (files : gmap string string) (patterns : list CopyPattern) (c : Compilation)
    (n : string) (s : Source) :
  assets (CopyWebpackPlugin files patterns c).2 !! n = Some s ->
  assets c !! n = Some s \/
  exists p, p ∈ patterns /\ copied files p !! n = Some s.
Proof.
  revert c. induction patterns as [|p patterns IH]; intros c H; [now left|].
  unfold CopyWebpackPlugin in H. cbn [forEach] in H. unfold bind in H.
  rewrite copyPattern_run in H. fold (CopyWebpackPlugin files patterns) in H.
  apply IH in H as [H|(q & Hq & H)].
  - cbn [assets] in H.
    destruct (force p); apply lookup_union_Some_raw in H as [H|[_ H]];
      auto; right; exists p; split; auto; left.
  - right. exists q. split; [now right | exact H].
Qed.

(** Patterns that do not force, and that agree on what they copy to a name
    that is free: the asset is the copy. *)
Lemma CopyWebpackPlugin_copies
    (files : gmap string string) (patterns : list CopyPattern) (c : Compilation)
    (n : string) (s : Source) :
  (forall p, p ∈ patterns -> force p = false) ->
  (forall p s', p ∈ patterns -> copied files p !! n = Some s' -> s' = s) ->
  (exists p, p ∈ patterns /\ copied files p !! n = Some s) ->
  assets c !! n = None ->
  assets (CopyWebpackPlugin files patterns c).2 !! n = Some s.
Proof.
  revert c. induction patterns as [|p patterns IH]; intros c Hf Hagree Hex Hn.
  { destruct Hex as (q & Hq & _). now apply elem_of_nil in Hq. }
  unfold CopyWebpackPlugin. cbn [forEach]. unfold bind.
  rewrite copyPattern_run. fold (CopyWebpackPlugin files patterns).
  rewrite (Hf p (list_elem_of_here _ _)).
  destruct (copied files p !! n) as [s'|] eqn:E.
  - rewrite (Hagree p s' (list_elem_of_here _ _) E) in E.
    apply CopyWebpackPlugin_keeps.
    + intros q Hq. apply Hf. now right.
    + cbn [assets]. now rewrite lookup_union_r.
  - apply IH.
    + intros q Hq. apply Hf. now right.
    + intros q s' Hq. apply Hagree. now right.
    + destruct Hex as (q & Hq & Hs). exists q. split; [|exact Hs].
      apply elem_of_cons in Hq as [->|Hq]; [congruence | exact Hq].
    + cbn [assets]. now rewrite lookup_union_r.
Qed.

(** The name a pattern gives to a copy, over normalised project paths. *)
Lemma copied_name
    (files : gmap string string) (dir n : string) (s : Source) :
  map_Forall (fun f _ => Path.normalised f = true) files ->
  dir ∈ ["images"; "js"; "libs"] ->
  copied files (pattern dir) !! n = Some s ->
  exists rel,
    files !! ("src/assets" +:+ "/" +:+ dir +:+ "/" +:+ rel) = Some (source s) /\
    n = dir +:+ "/" +:+ rel.
Proof.
  intros Hnorm Hdir H.
  destruct (pattern_dir dir Hdir) as (Hfrom & Hto & Hnd & _ & _).
  apply copied_inv in H as (file & rel & dir' & Hfile & Hrel & Hdir' & ->).
  rewrite Hto in Hdir'. injection Hdir' as <-.
  rewrite Hfrom in Hrel. apply below_spec in Hrel as ->.
  exists rel. split; [exact Hfile|].
  apply join_normalised; [exact Hnd|].
  apply (below_normalised ("src/assets" +:+ "/" +:+ dir)).
  exact (Hnorm _ _ Hfile).
Qed.

(** A normalised project file below the directory of a pattern is copied. *)
Lemma copied_lookup
    (files : gmap string string) (dir rel content : string) :
  map_Forall (fun f _ => Path.normalised f = true) files ->
  dir ∈ ["images"; "js"; "libs"] ->
  files !! ("src/assets" +:+ "/" +:+ dir +:+ "/" +:+ rel) = Some content ->
  copied files (pattern dir) !! (dir +:+ "/" +:+ rel) = Some (RawSource content).
Proof.
  intros Hnorm Hdir Hfile.
  destruct (pattern_dir dir Hdir) as (Hfrom & Hto & Hnd & _ & _).
  assert (Hrel : Path.normalised rel = true).
  { apply (below_normalised ("src/assets" +:+ "/" +:+ dir)).
    exact (Hnorm _ _ Hfile). }
  unfold copied. apply elem_of_list_to_map_1'.
  - intros y Hy.
    apply list_elem_of_omap in Hy as ([file c'] & Hin & Ht).
    apply elem_of_map_to_list in Hin.
    unfold copy_target in Ht. cbn [fst snd] in Ht.
    destruct (Path.below (from (pattern dir)) file) as [rel'|] eqn:Hb;
      [|discriminate Ht].
    rewrite Hto in Ht.
    change (Some (Path.join [dir; rel'], RawSource c') =
            Some (dir +:+ "/" +:+ rel, y)) in Ht.
    injection Ht as Hname <-.
    rewrite Hfrom in Hb. apply below_spec in Hb as ->.
    rewrite join_normalised in Hname;
      [|exact Hnd
       |apply (below_normalised ("src/assets" +:+ "/" +:+ dir));
        exact (Hnorm _ _ Hin)].
    apply (inj (String.app dir)), (inj (String.app "/")) in Hname as ->.
    assert (Hcc : Some c' = Some content) by (rewrite <- Hin; exact Hfile).
    now injection Hcc as ->.
  - apply list_elem_of_omap.
    exists ("src/assets" +:+ "/" +:+ dir +:+ "/" +:+ rel, content). split.
    + now apply elem_of_map_to_list.
    + assert (Hb : Path.below ("src/assets" +:+ "/" +:+ dir)
                       ("src/assets" +:+ "/" +:+ dir +:+ "/" +:+ rel) = Some rel).
      { apply (proj2 (below_spec _ _ _)). reflexivity. }
      unfold copy_target. cbn [fst snd]. rewrite Hfrom, Hto, Hb.
      change (Some (Path.join [dir; rel], RawSource content) =
              Some (dir +:+ "/" +:+ rel, RawSource content)).
      now rewrite join_normalised.
Qed.

(** The copies of two directories never share a name. *)
Lemma dir_slash_inj (dir dir' rel rel' : string) :
  dir ∈ ["images"; "js"; "libs"] ->
  dir' ∈ ["images"; "js"; "libs"] ->
  dir +:+ "/" +:+ rel = dir' +:+ "/" +:+ rel' ->
  dir = dir' /\ rel = rel'.
Proof.
  intros Hd Hd' Heq.
  repeat (apply elem_of_cons in Hd as [->|Hd]); [| | |now apply elem_of_nil in Hd];
    (repeat (apply elem_of_cons in Hd' as [->|Hd']);
       [| | |now apply elem_of_nil in Hd']);
    cbv in Heq; try discriminate Heq;
    (split; [reflexivity | now injection Heq]).
Qed.

(** The name of a copy starts with no letter of [css] and [chunk]. *)
Lemma dir_slash_head (dir rel : string) :
  dir ∈ ["images"; "js"; "libs"] ->
  exists a t, dir +:+ "/" +:+ rel = String a t /\ a <> "c"%char.
Proof.
  intros Hd.
  repeat (apply elem_of_cons in Hd as [->|Hd]); [| | |now apply elem_of_nil in Hd];
    eexists _, _; (split; [reflexivity | discriminate]).
Qed.

(** A name that starts with another letter is no output file of an entry
    and no [rtl] name of the table. *)
Lemma not_c_not_compiled (a : ascii) (t : string) :
  a <> "c"%char ->
  (String a t ∉ css_file <$> entry) /\
  (String a t ∉ js_file <$> entry) /\
  (String a t ∉ rtl <$> cssPairs).
Proof.
  intros Ha. repeat split; intros Hin;
    apply list_elem_of_fmap_1 in Hin as (x & Heq & Hx);
    repeat (apply elem_of_cons in Hx as [->|Hx]); try (now apply elem_of_nil in Hx);
    cbv in Heq; injection Heq as Heq _; now apply Ha.
Qed.


(** ** The claims on the build *)


(** C5: the hook changes no asset but those under the [rtl] names of the
    table. Whatever the assets and whether it returns or throws, the
    sheet of every pair is as it was, and so is every asset under another
    name. In a build the [rtl] names are free when the hook is entered, so
    every asset that was there is still there, unchanged. *)
Theorem GenerateRTL_leaves_other_assets :
  (forall c : Compilation,
     (forall p, p ∈ cssPairs ->
        assets (GenerateRTL c).2 !! ltr p = assets c !! ltr p) /\
     (forall n, n ∉ rtl <$> cssPairs ->
        assets (GenerateRTL c).2 !! n = assets c !! n)) /\
  (forall files : gmap string string,
     (forall p, p ∈ cssPairs ->
        assets (before_GenerateRTL files empty_compilation).2 !! rtl p = None) /\
     assets (before_GenerateRTL files empty_compilation).2
       ⊆ assets (GenerateRTL (before_GenerateRTL files empty_compilation).2).2).
Proof.
  split.
  - intros c. split.
    + intros p Hp. apply forEach_frame. now apply cssPairs_ltr_not_rtl.
    + intros n Hn. now apply forEach_frame.
  - intros files. split.
    + intros p Hp. now apply hook_entry_rtl_free.
    + apply map_subseteq_spec. intros n s Hn.
      unfold GenerateRTL. rewrite forEach_frame; [exact Hn|].
      intros Hin. apply list_elem_of_fmap_1 in Hin as (p & -> & Hp).
      pose proof (hook_entry_rtl_free files p Hp) as Hfree. congruence.
Qed.



(** C10: the [libs] pattern listed twice copies what the pattern listed
    once copies. Over every project and every state of the compilation the
    two lists of patterns leave the same assets, and so the same output
    directory; and so they do when every pattern replaces the assets that
    are there instead of keeping them. *)
Theorem libs_listed_twice
    (files : gmap string string) (c : Compilation) (out : gmap string string) :
  CopyWebpackPlugin files CopyWebpackPlugin_patterns c =
    CopyWebpackPlugin files patterns_listed_once c /\
  emitAssets (CopyWebpackPlugin files CopyWebpackPlugin_patterns c).2 out =
    emitAssets (CopyWebpackPlugin files patterns_listed_once c).2 out /\
  CopyWebpackPlugin files (forced <$> CopyWebpackPlugin_patterns) c =
    CopyWebpackPlugin files (forced <$> patterns_listed_once) c.
Proof.
  assert (Heq : CopyWebpackPlugin files CopyWebpackPlugin_patterns c =
                CopyWebpackPlugin files patterns_listed_once c).
  { exact (CopyWebpackPlugin_repeated files [pattern "images"; pattern "js"]
             (pattern "libs") c). }
  split; [exact Heq|]. split; [now rewrite Heq|].
  exact (CopyWebpackPlugin_repeated files
           [forced (pattern "images"); forced (pattern "js")]
           (forced (pattern "libs")) c).
Qed.

(** ** More on the hook *)

(** How the loop ends, over a table in which no [rtl] name is the [ltr]
    name of a pair: it returns, or throws the TypeError of a missing
    source, or throws what the flip threw on the sheet of a pair. *)
Lemma forEach_completion (pairs : list CssPair) (c : Compilation) :
  (forall q, q ∈ pairs -> ltr q ∉ rtl <$> pairs) ->
  (forEach pairs processPair c).1 = Normal tt \/
  (forEach pairs processPair c).1 = Throw undefined_source \/
  exists p s e,
    p ∈ pairs /\
    assets c !! ltr p = Some s /\
    rtlcss_process (source s) {| autoRename := false; clean := false |} =
      Throw e /\
    (forEach pairs processPair c).1 = Throw e.
Proof.
  revert c. induction pairs as [|p pairs IH]; intros c Hlr; [now left|].
  cbn. unfold bind. destruct (assets c !! ltr p) as [s|] eqn:E.
  - destruct (rtlcss_process (source s) {| autoRename := false; clean := false |})
      as [css|e] eqn:Hflip.
    + rewrite (processPair_some _ _ _ _ E Hflip).
      destruct (IH {| assets := <[rtl p := RawSource css]> (assets c) |})
        as [H|[H|(q & s' & e & Hq & Hs' & Hf & H)]].
      * intros q Hq Hin. apply (Hlr q); [now right|]. rewrite fmap_cons. now right.
      * now left.
      * now right; left.
      * right. right. exists q, s', e. split; [now right|].
        split; [|now split]. cbn in Hs'.
        rewrite lookup_insert_ne in Hs'; [exact Hs'|].
        intros Heq. apply (Hlr q); [now right|]. rewrite fmap_cons, Heq. left.
    + rewrite (processPair_flip_throws _ _ _ _ E Hflip).
      right. right. exists p, s, e. split; [left|]. now split.
  - rewrite (processPair_none _ _ E). now right; left.
Qed.

(** A loop over pairs that all have their flipped sheet already changes
    nothing. *)
Lemma forEach_settled (pairs : list CssPair) (c : Compilation) :
  (forall q, q ∈ pairs ->
     exists css, flips_to c q css /\ assets c !! rtl q = Some (RawSource css)) ->
  forEach pairs processPair c = (Normal tt, c).
Proof.
  induction pairs as [|p pairs IH]; intros Hall; [reflexivity|].
  destruct (Hall p) as (css & (s & Hs & Hflip) & Hr); [left|].
  cbn. unfold bind. rewrite (processPair_some _ _ _ _ Hs Hflip).
  rewrite (insert_id _ _ _ Hr).
  destruct c as [a]. cbn [assets]. apply IH.
  intros q Hq. apply Hall. now right.
Qed.

(** X1: the hook returns exactly when, for every pair of the table, the
    sheet is among the assets and the flip returns on its text. When it
    does not return, it throws the TypeError of reading [source] of
    [undefined], or what the flip threw on the sheet of a pair. *)
Theorem GenerateRTL_returns_iff (c : Compilation) :
  ((GenerateRTL c).1 = Normal tt <->
   forall p, p ∈ cssPairs -> exists css, flips_to c p css) /\
  ((GenerateRTL c).1 = Normal tt \/
   (GenerateRTL c).1 = Throw undefined_source \/
   exists p s e,
     p ∈ cssPairs /\
     assets c !! ltr p = Some s /\
     rtlcss_process (source s) {| autoRename := false; clean := false |} =
       Throw e /\
     (GenerateRTL c).1 = Throw e).
Proof.
  split; [|apply forEach_completion, cssPairs_ltr_not_rtl]. split.
  - intros Hret. apply (forEach_returned cssPairs c (GenerateRTL c).2).
    + apply cssPairs_ltr_not_rtl.
    + now apply run_eq.
  - intros Hall.
    destruct (forEach_processed cssPairs c cssPairs_rtl_NoDup
                cssPairs_ltr_not_rtl Hall) as (c' & Hrun & _).
    unfold GenerateRTL. now rewrite Hrun.
Qed.

(** X2: the hook run once more on the assets it left leaves them as they
    are. *)
Theorem GenerateRTL_twice (c c' : Compilation) :
  GenerateRTL c = (Normal tt, c') ->
  GenerateRTL c' = (Normal tt, c').
Proof.
  intros Hrun. apply forEach_settled. intros q Hq.
  pose proof (forEach_returned cssPairs c c' cssPairs_ltr_not_rtl Hrun) as Hsrc.
  destruct (Hsrc q Hq) as (css & s & Hs & Hflip).
  destruct (forEach_processed cssPairs c cssPairs_rtl_NoDup
              cssPairs_ltr_not_rtl Hsrc) as (c2 & Hrun2 & Hall).
  unfold GenerateRTL in Hrun. rewrite Hrun in Hrun2. injection Hrun2 as <-.
  exists css. split; [|apply Hall; [exact Hq | now exists s]].
  exists s. split; [|exact Hflip].
  pose proof (forEach_frame cssPairs c (ltr q) (cssPairs_ltr_not_rtl q Hq)) as Hf.
  rewrite Hrun in Hf. cbn [snd] in Hf. now rewrite Hf.
Qed.

(** ** More on the chunk assets *)

Lemma js_files_NoDup (entries : list EntryPoint) :
  NoDup (entry_name <$> entries) -> NoDup (js_file <$> entries).
Proof.
  induction entries as [|x entries IH]; intros Hnd; [constructor|].
  rewrite fmap_cons in Hnd. apply NoDup_cons in Hnd as [Hx Hnd].
  rewrite fmap_cons. apply NoDup_cons. split; [|now apply IH].
  intros Hin. apply list_elem_of_fmap_1 in Hin as (y & Heq & Hy).
  apply Hx. rewrite (js_file_inj _ _ Heq). now apply list_elem_of_fmap_2.
Qed.

Lemma css_files_NoDup (entries : list EntryPoint) :
  NoDup (entry_name <$> entries) -> NoDup (css_file <$> entries).
Proof.
  induction entries as [|x entries IH]; intros Hnd; [constructor|].
  rewrite fmap_cons in Hnd. apply NoDup_cons in Hnd as [Hx Hnd].
  rewrite fmap_cons. apply NoDup_cons. split; [|now apply IH].
  intros Hin. apply list_elem_of_fmap_1 in Hin as (y & Heq & Hy).
  apply Hx. rewrite (css_file_inj _ _ Heq). now apply list_elem_of_fmap_2.
Qed.

(** X3: the output names [chunk/[name].js] and [css/[name].min.css] never
    collide: the script chunks and the sheets of a list of entries are
    pairwise distinct names exactly when the names of the entries are
    pairwise distinct. *)
Theorem output_files_distinct (entries : list EntryPoint) :
  NoDup ((js_file <$> entries) ++ (css_file <$> entries)) <->
  NoDup (entry_name <$> entries).
Proof.
  split.
  - intros [Hjs _]%NoDup_app.
    change (js_file <$> entries)
      with ((fun e => Template.interpolate output_filename (entry_name e))
              <$> entries) in Hjs.
    rewrite (list_fmap_compose entry_name
               (Template.interpolate output_filename)) in Hjs.
    exact (NoDup_fmap_1 _ _ Hjs).
  - intros Hnd. apply NoDup_app. split; [now apply js_files_NoDup|].
    split; [|now apply css_files_NoDup].
    intros n Hj Hc.
    apply list_elem_of_fmap_1 in Hj as (e1 & -> & _).
    apply list_elem_of_fmap_1 in Hc as (e2 & Heq & _).
    symmetry in Heq. now apply (css_file_not_js e2 e1).
Qed.

(** ** More on the build *)

(** X4: a build returns exactly when its table flips: for every pair, the
    entry whose sheet the pair reads compiled and the flip returns on the
    compiled text. The directory a build wrote then holds, for every pair,
    that compiled text under the pair's [ltr] name and what the flip
    returned on it, both options off, under its [rtl] name. *)
Theorem build_writes_flipped_sheets (files out : gmap string string) :
  ((exists o, build files out = Normal o) <-> flippable files) /\
  (forall o q, build files out = Normal o -> q ∈ cssPairs ->
     exists e css r,
       e ∈ entry /\
       ltr q = css_file e /\
       compile_scss files (entry_path e) = Some css /\
       rtlcss_process css {| autoRename := false; clean := false |} =
         Normal r /\
       o !! ltr q = Some css /\
       o !! rtl q = Some r).
Proof.
  assert (Hback : forall o, build files out = Normal o -> flippable files).
  { intros o [Hret _]%build_returns. rewrite seal_after in Hret.
    exact (GenerateRTL_returned_in_build files _ (run_eq _ _ _ Hret)). }
  split; [split; [intros [o Ho]; exact (Hback o Ho) | apply build_flippable]|].
  intros o q Hbuild Hq.
  destruct (Hback o Hbuild q Hq) as (e & css & r & He & Heq & Hcss & Hflip).
  exists e, css, r. repeat (split; [assumption|]).
  destruct (GenerateRTL_in_build files (Hback o Hbuild)) as (c & Hrun & Hall).
  pose proof (hook_entry_css files e css He Hcss) as Hsheet.
  rewrite <- Heq in Hsheet. split.
  - exact (build_lookup files out o _ _ Hbuild (seal_keeps files _ _ Hsheet)).
  - apply (build_lookup files out o _ (RawSource r) Hbuild).
    rewrite seal_after, Hrun. cbn [snd]. apply (Hall q r Hq).
    exists (RawSource css). now split.
Qed.

(** X5: whatever the copy stage adds is a copy. An asset after the copy
    stage either was there before it, unchanged, or holds the bytes of a
    project file below [src/assets/images], [src/assets/js] or
    [src/assets/libs], under that file's relative path joined to
    [images], [js] or [libs]. *)
Theorem copy_stage_adds_copies
    (files : gmap string string) (c : Compilation) (n : string) (s : Source) :
  assets (CopyWebpackPlugin files CopyWebpackPlugin_patterns c).2 !! n = Some s ->
  assets c !! n = Some s \/
  exists dir rel,
    dir ∈ ["images"; "js"; "libs"] /\
    files !! ("src/assets" +:+ "/" +:+ dir +:+ "/" +:+ rel) = Some (source s) /\
    n = Path.join [dir; rel] /\
    String.prefix dir n = true.
Proof.
  intros H. apply CopyWebpackPlugin_lookup_inv in H as [H|(p & Hp & H)]; [now left|].
  right. apply patterns_dirs in Hp as (dir & Hdir & ->).
  destruct (pattern_dir dir Hdir) as (Hfrom & Hto & _ & Hseg & Hproper).
  apply copied_inv in H as (file & rel & dir' & Hfile & Hrel & Hdir' & ->).
  rewrite Hto in Hdir'. injection Hdir' as <-.
  rewrite Hfrom in Hrel. apply below_spec in Hrel as ->.
  exists dir, rel. split; [exact Hdir|]. split; [|split; [reflexivity|]].
  - rewrite <- Hfile. reflexivity.
  - now apply join_prefix.
Qed.

(** X6: a build that returns has copied every file of the three asset
    directories. Over a project whose paths are normalised, a file at
    [src/assets/<dir>/<rel>], for [<dir>] one of [images], [js] and
    [libs], is in the directory the build wrote at [<dir>/<rel>] with the
    same bytes. *)
Theorem build_copies_project_files
    (files out o : gmap string string) (dir rel content : string) :
  map_Forall (fun f _ => Path.normalised f = true) files ->
  dir ∈ ["images"; "js"; "libs"] ->
  files !! ("src/assets" +:+ "/" +:+ dir +:+ "/" +:+ rel) = Some content ->
  build files out = Normal o ->
  o !! (dir +:+ "/" +:+ rel) = Some content.
Proof.
  intros Hnorm Hdir Hfile Hbuild.
  apply (build_lookup files out o _ (RawSource content) Hbuild).
  apply seal_keeps.
  destruct (dir_slash_head dir rel Hdir) as (a & t & Hname & Ha).
  destruct (not_c_not_compiled a t Ha) as (Hcss & Hjs & _).
  rewrite before_GenerateRTL_run. cbn [snd].
  apply CopyWebpackPlugin_copies.
  - apply patterns_do_not_force.
  - intros p s' Hp Hs'. apply patterns_dirs in Hp as (dir' & Hdir' & ->).
    apply (copied_name files dir' _ s' Hnorm Hdir') in Hs' as (rel' & Hfile' & Heq).
    destruct (dir_slash_inj _ _ _ _ Hdir Hdir' Heq) as [<- <-].
    assert (Hcc : Some (source s') = Some content) by (rewrite <- Hfile'; exact Hfile).
    destruct s' as [text]. cbn in Hcc. now injection Hcc as ->.
  - exists (pattern dir). split; [now apply dirs_patterns|].
    now apply copied_lookup.
  - rewrite Hname. rewrite createChunkAssets_frame by assumption.
    apply lookup_empty.
Qed.

(** X9: the copy stage leaves alone every name that does not start with
    [images], [js] or [libs]: an asset under such a name is after the
    stage what it was before it, and a free name stays free. *)
Theorem copy_stage_leaves_other_names
    (files : gmap string string) (c : Compilation) (n : string) :
  (forall dir, dir ∈ ["images"; "js"; "libs"] -> String.prefix dir n = false) ->
  assets (CopyWebpackPlugin files CopyWebpackPlugin_patterns c).2 !! n =
    assets c !! n.
Proof.
  intros Hn. apply CopyWebpackPlugin_frame. intros p Hp.
  destruct (copied files p !! n) as [s|] eqn:E; [|reflexivity].
  apply patterns_dirs in Hp as (dir & Hdir & ->).
  destruct (pattern_dir dir Hdir) as (_ & Hto & _ & Hseg & Hproper).
  apply copied_inv in E as (file & rel & dir' & _ & _ & Hdir' & ->).
  rewrite Hto in Hdir'. injection Hdir' as <-.
  pose proof (Hn dir Hdir) as Hfalse.
  rewrite (join_prefix dir rel Hseg Hproper) in Hfalse. discriminate Hfalse.
Qed.

End Pipeline.

(** ** The statements on the sample data *)

(** The table of the sample project flips. *)
Lemma sample_flippable :
  flippable Sample.flip Sample.scss Sample.project.
Proof.
  intros q Hq. unfold cssPairs in Hq.
  repeat (apply elem_of_cons in Hq as [->|Hq]); [| |now apply elem_of_nil in Hq].
  - exists {| entry_name := "app";
              entry_path := Path.join [src_assets folder; "scss/app.scss"] |},
      ".a{margin-left: 10px}", ".a{margin-right: 10px}".
    split; [left|]. repeat split.
  - exists {| entry_name := "bootstrap";
              entry_path := Path.join [src_assets folder; "scss/bootstrap.scss"] |},
      ".b{float:left}", ".b{float:right}".
    split; [right; left|]. repeat split.
Qed.


(** C1, as stated, fails: with the sheet of app missing and the sheet of
    bootstrap there, the hook throws in the state it was entered in. No
    pair is skipped, and the pair of bootstrap, whose sheet is there, is
    not processed. *)
Lemma missing_source_is_fatal :
  assets Sample.no_app !! "css/app.min.css" = None /\
  assets Sample.no_app !! "css/bootstrap.min.css" =
    Some (RawSource ".b{float:left}") /\
  GenerateRTL Sample.flip Sample.no_app =
    (Throw undefined_source, Sample.no_app) /\
  assets (GenerateRTL Sample.flip Sample.no_app).2
    !! "css/bootstrap-rtl.min.css" = None.
Proof. repeat split; vm_compute; reflexivity. Qed.

(** C1 (as amended) on the sample in which the second sheet is missing:
    the hook throws, the first pair has its flipped sheet and the second
    has none. *)
Lemma GenerateRTL_throws_on_missing_source_sample :
  exists c',
    GenerateRTL Sample.flip Sample.no_bootstrap = (Throw undefined_source, c') /\
    assets c' !! "css/app-rtl.min.css" =
      Some (RawSource ".a{margin-right: 10px}") /\
    assets c' !! "css/bootstrap-rtl.min.css" = None.
Proof.
  destruct (GenerateRTL_throws_on_missing_source Sample.flip Sample.no_bootstrap
              [ {| ltr := "css/app.min.css"; rtl := "css/app-rtl.min.css" |} ]
              []
              {| ltr := "css/bootstrap.min.css"; rtl := "css/bootstrap-rtl.min.css" |})
    as (c' & Hthrow & Hdone & Hframe).
  - reflexivity.
  - intros q Hq. apply list_elem_of_singleton in Hq. rewrite Hq.
    exists ".a{margin-right: 10px}", (RawSource ".a{margin-left: 10px}").
    split; reflexivity.
  - reflexivity.
  - exists c'. split; [exact Hthrow|]. split.
    + apply (Hdone {| ltr := "css/app.min.css"; rtl := "css/app-rtl.min.css" |});
        [left|].
      exists (RawSource ".a{margin-left: 10px}"). split; reflexivity.
    + rewrite Hframe; [reflexivity|].
      apply (bool_decide_unpack _). vm_compute. exact I.
Defined.

(** C4, as stated, fails: the sheet of bootstrap is there, and the hook,
    which throws at the pair of app before it, sets nothing under
    [css/bootstrap-rtl.min.css]. *)
Lemma later_pair_is_not_reached :
  {| ltr := "css/bootstrap.min.css"; rtl := "css/bootstrap-rtl.min.css" |}
    ∈ cssPairs /\
  assets Sample.no_app !! "css/bootstrap.min.css" =
    Some (RawSource ".b{float:left}") /\
  assets (GenerateRTL Sample.flip Sample.no_app).2
    !! "css/bootstrap-rtl.min.css" = None.
Proof. split; [right; left|]. split; vm_compute; reflexivity. Qed.

(** C4 (as amended) on the sample with both sheets: the second pair, after
    the first, has the flipped text of its sheet under its [rtl] name, a
    name that was free. *)
Lemma GenerateRTL_registers_flipped_sample :
  assets (GenerateRTL Sample.flip Sample.both).2 !! "css/bootstrap-rtl.min.css" =
    Some (RawSource ".b{float:right}") /\
  "css/bootstrap-rtl.min.css"
    ∈ dom (assets (GenerateRTL Sample.flip Sample.both).2)
        ∖ dom (assets Sample.both).
Proof.
  destruct (GenerateRTL_registers_flipped Sample.flip Sample.both
              [ {| ltr := "css/app.min.css"; rtl := "css/app-rtl.min.css" |} ]
              []
              {| ltr := "css/bootstrap.min.css"; rtl := "css/bootstrap-rtl.min.css" |}
              (RawSource ".b{float:left}") ".b{float:right}")
    as [Hset Hnew].
  - reflexivity.
  - intros q Hq. apply list_elem_of_singleton in Hq. rewrite Hq.
    exists ".a{margin-right: 10px}", (RawSource ".a{margin-left: 10px}").
    split; reflexivity.
  - reflexivity.
  - reflexivity.
  - split; [exact Hset | apply Hnew; reflexivity].
Defined.




(** The build of the sample project into an empty directory: ten files,
    among them the flipped sheets of app and bootstrap and none of icons. *)
Example build_sample :
  match build Sample.flip Sample.scss Sample.chunk Sample.project ∅ with
  | Normal out =>
      (size out,
       out !! "css/app.min.css", out !! "css/app-rtl.min.css",
       out !! "css/bootstrap-rtl.min.css", out !! "css/icons.min.css",
       out !! "css/icons-rtl.min.css", out !! "libs/swiper/swiper.js")
  | Throw _ => (0, None, None, None, None, None, None)
  end =
  (10,
   Some ".a{margin-left: 10px}", Some ".a{margin-right: 10px}",
   Some ".b{float:right}", Some ".i{left:0}",
   None, Some "swiper").
Proof. vm_compute. reflexivity. Qed.

(** The build of the project without the source of icons: the hook
    returns, and the build writes every file but the sheet of icons. *)
Example build_without_icons :
  match build Sample.flip Sample.scss Sample.chunk
          Sample.project_without_icons ∅ with
  | Normal out =>
      (size out,
       out !! "chunk/icons.js", out !! "css/icons.min.css",
       out !! "css/app-rtl.min.css", out !! "css/bootstrap-rtl.min.css")
  | Throw _ => (0, None, None, None, None)
  end =
  (9,
   Some "/* icons */", None,
   Some ".a{margin-right: 10px}", Some ".b{float:right}").
Proof. vm_compute. reflexivity. Qed.

(** A sheet the flip cannot read: the hook throws what the flip threw and
    sets nothing for that pair; the pairs before it keep their flipped
    sheet. *)
Example unparsable_sheet :
  GenerateRTL Sample.flip Sample.unparsable_app =
    (Throw (CssSyntaxError "Unclosed block"), Sample.unparsable_app) /\
  (GenerateRTL Sample.flip Sample.unparsable_bootstrap).1 =
    Throw (CssSyntaxError "Unclosed block") /\
  assets (GenerateRTL Sample.flip Sample.unparsable_bootstrap).2
    !! "css/app-rtl.min.css" = Some (RawSource ".a{margin-right: 10px}") /\
  assets (GenerateRTL Sample.flip Sample.unparsable_bootstrap).2
    !! "css/bootstrap-rtl.min.css" = None.
Proof. repeat split; vm_compute; reflexivity. Qed.

(** The copy stage on the sample project, from no assets, with the [libs]
    pattern twice and once: the same two assets. *)
Example copy_sample :
  (fun a : gmap string Source =>
     (size a, a !! "images/logo.png", a !! "libs/swiper/swiper.js")) <$>
    [ assets (CopyWebpackPlugin Sample.project CopyWebpackPlugin_patterns
                empty_compilation).2;
      assets (CopyWebpackPlugin Sample.project patterns_listed_once
                empty_compilation).2 ] =
  [ (2, Some (RawSource "PNG"), Some (RawSource "swiper"));
    (2, Some (RawSource "PNG"), Some (RawSource "swiper")) ].
Proof. vm_compute. reflexivity. Qed.

(** The taps of [processAssets], in the order in which they are called. *)
Example processAssets_sample :
  tap_name <$> processAssets Sample.flip Sample.project =
    ["CopyPlugin"; "GenerateRTL"].
Proof. reflexivity. Qed.

(** Outside a build: an asset that holds an [rtl] name of the table before
    the hook is replaced by it. *)
Example taken_name_is_replaced :
  assets (GenerateRTL Sample.flip Sample.taken).2 !! "css/app-rtl.min.css" =
    Some (RawSource ".a{margin-right: 10px}").
Proof. vm_compute. reflexivity. Qed.

(** X2 on the sample with both sheets. *)
Lemma GenerateRTL_twice_sample :
  GenerateRTL Sample.flip (GenerateRTL Sample.flip Sample.both).2 =
    (Normal tt, (GenerateRTL Sample.flip Sample.both).2).
Proof.
  apply (GenerateRTL_twice Sample.flip Sample.both).
  apply run_eq. reflexivity.
Defined.

(** X5 on the sample project: where the asset [images/logo.png] of the
    copy stage comes from. *)
Lemma copy_stage_adds_copies_sample :
  assets empty_compilation !! "images/logo.png" = Some (RawSource "PNG") \/
  exists dir rel,
    dir ∈ ["images"; "js"; "libs"] /\
    Sample.project !! ("src/assets" +:+ "/" +:+ dir +:+ "/" +:+ rel) =
      Some (source (RawSource "PNG")) /\
    "images/logo.png" = Path.join [dir; rel] /\
    String.prefix dir "images/logo.png" = true.
Proof.
  apply (copy_stage_adds_copies Sample.project empty_compilation
           "images/logo.png" (RawSource "PNG")).
  vm_compute. reflexivity.
Defined.

(** X6 on the sample project: the file of the [libs] directory is in the
    directory the build wrote. *)
Lemma build_copies_project_files_sample :
  exists o,
    build Sample.flip Sample.scss Sample.chunk Sample.project ∅ = Normal o /\
    o !! "libs/swiper/swiper.js" = Some "swiper".
Proof.
  destruct (build_flippable Sample.flip Sample.scss Sample.chunk
              Sample.project ∅ sample_flippable) as [o Ho].
  exists o. split; [exact Ho|].
  apply (build_copies_project_files Sample.flip Sample.scss Sample.chunk
           Sample.project ∅ o "libs" "swiper/swiper.js" "swiper").
  - apply (bool_decide_unpack _). vm_compute. exact I.
  - right. right. left.
  - reflexivity.
  - exact Ho.
Defined.

(** X9 on the sample project and the compilation with both sheets: the
    sheet of app is untouched by the copy stage. *)
Lemma copy_stage_leaves_other_names_sample :
  assets (CopyWebpackPlugin Sample.project CopyWebpackPlugin_patterns
            Sample.both).2 !! "css/app.min.css" =
    assets Sample.both !! "css/app.min.css".
Proof.
  apply (copy_stage_leaves_other_names Sample.project Sample.both
           "css/app.min.css").
  intros dir Hdir.
  repeat (apply elem_of_cons in Hdir as [->|Hdir]);
    [reflexivity | reflexivity | reflexivity | now apply elem_of_nil in Hdir].
Defined.
